(** * BucketPolicyMember: the external client of the storage controller

    A shallow embedding of [pkg/controller/storage/bucketpolicymember.go]:
    the four verbs [Observe], [Create], [Update] and [Delete] of
    [bucketPolicyMemberExternal], written in a small state monad that
    threads the remote policy store and keeps the log of the calls issued
    to it.  What the file imports but does not define (the [bucketpolicy]
    client and helpers, the crossplane runtime, the constants of sibling
    files) enters through two classes, [Client] and [Imports]; an instance
    of each, following sections 3 and 4 of the specification, is given
    after the verbs. *)

From Stdlib Require Import ZArith.
From stdpp Require Import gmap strings list fin_maps.

(** ** Errors

    Go's [error] interface, with nil as [None].  Three ways of making an
    error occur in the file: [errors.New], [errors.Wrap] and whatever the
    remote call returns (a [googleapi.Error] carrying an HTTP code). *)

Inductive error : Type :=
  | errorsNew (msg : string)
  | errorsWithMessage (cause : error) (msg : string)
  | googleapiError (code : Z) (message : string).

(** [errors.Wrap(err, msg)]: nil stays nil, anything else is annotated. *)
Definition errorsWrap (err : option error) (msg : string) : option error :=
  match err with
  | None => None
  | Some e => Some (errorsWithMessage e msg)
  end.

(** The innermost error of a chain of wraps ([errors.Cause]). *)
Fixpoint Cause (e : error) : error :=
  match e with
  | errorsWithMessage cause _ => Cause cause
  | _ => e
  end.

(** HTTP codes of two remote failures: the bucket or its policy is not
    there, and the version token of a write is stale. *)
Definition StatusNotFound : Z := 404.
Definition StatusPreconditionFailed : Z := 412.

(** What it is for an error to be a NotFound: a 404 at the root of the
    chain of wraps. *)
Definition IsErrorNotFound (e : error) : bool :=
  match Cause e with
  | googleapiError code _ => (code =? StatusNotFound)%Z
  | _ => false
  end.

Definition errNotBucketPolicyMember : string :=
  "managed resource is not a GCP BucketPolicyMember".

(** ** The managed resource *)

(** Modelled from the spec: [v1alpha1.BucketPolicyMemberParameters],
    declared in a package this file imports; the desired binding of
    section 3: a resource, a role and a member.  [Bucket] is a pointer,
    which the verbs read through [gcp.StringValue]. *)
Record BucketPolicyMemberParameters : Type := {
  Bucket : option string;
  Role : string;
  Member : string
}.

Record BucketPolicyMemberSpec : Type := {
  ForProvider : BucketPolicyMemberParameters
}.

(** Results handed back to the managed reconciler. *)
Record ExternalObservation : Type := {
  ResourceExists : bool;
  ResourceUpToDate : bool;
  ResourceLateInitialized : bool
}.

Definition ExternalObservation_zero : ExternalObservation :=
  {| ResourceExists := false;
     ResourceUpToDate := false;
     ResourceLateInitialized := false |}.

Record ExternalCreation : Type := {
  ExternalNameAssigned : bool
}.

Definition ExternalCreation_zero : ExternalCreation :=
  {| ExternalNameAssigned := false |}.

Inductive ExternalUpdate : Type := ExternalUpdate_zero.

(** ** The bucket policy client

    [bucketpolicy.Client] is an interface; the two calls the controller
    chains on it are [GetIamPolicy(bucket).OptionsRequestedPolicyVersion(v)
    .Context(ctx).Do()] and [SetIamPolicy(bucket, policy).Context(ctx).Do()].
    Each takes the remote store from one state to the next and answers
    with a policy or an error. *)

Class Client (context Policy World : Type) : Type := {
  GetIamPolicyDo :
    string -> Z -> context -> World -> (Policy + error) * World;
  SetIamPolicyDo :
    string -> Policy -> context -> World -> (Policy + error) * World
}.

(** One entry of the call log: the request and what came back. *)
Inductive Call (Policy : Type) : Type :=
  | CallGetIamPolicy (bucket : string) (requestedPolicyVersion : Z)
      (response : Policy + error)
  | CallSetIamPolicy (bucket : string) (policy : Policy)
      (response : Policy + error).

Arguments CallGetIamPolicy {Policy} bucket requestedPolicyVersion response.
Arguments CallSetIamPolicy {Policy} bucket policy response.

Definition isSetIamPolicy {Policy} (c : Call Policy) : bool :=
  match c with
  | CallSetIamPolicy _ _ _ => true
  | CallGetIamPolicy _ _ _ => false
  end.

(** ** What the file imports

    Declared in packages that this file imports: the two wrap messages of
    package [storage] ([errGetPolicy], [errSetPolicy]),
    [iamv1alpha1.PolicyVersion], [gcp.StringValue], and the two helpers of
    package [bucketpolicy], which update in place the policy they are
    given and return whether they changed it (here: the updated policy and
    the flag).  From the crossplane runtime: [xpv1.Available()] and
    [SetConditions] on the status of a resource. *)

Class Imports (Policy ConditionedStatus Condition : Type) : Type := {
  errGetPolicy : string;
  errSetPolicy : string;
  PolicyVersion : Z;
  StringValue : option string -> string;
  BindRoleToMember : BucketPolicyMemberParameters -> Policy -> Policy * bool;
  UnbindRoleFromMember :
    BucketPolicyMemberParameters -> Policy -> Policy * bool;
  Available : Condition;
  SetConditions : Condition -> ConditionedStatus -> ConditionedStatus
}.

(** [v1alpha1.BucketPolicyMember]: the desired state and the status. *)
Record BucketPolicyMember (ConditionedStatus : Type) : Type := {
  Spec : BucketPolicyMemberSpec;
  Status : ConditionedStatus
}.

Arguments Build_BucketPolicyMember {ConditionedStatus} _ _.
Arguments Spec {ConditionedStatus} _.
Arguments Status {ConditionedStatus} _.

(** [resource.Managed] is an interface; the verbs type-assert it to
    [*v1alpha1.BucketPolicyMember]. *)
Inductive Managed (ConditionedStatus : Type) : Type :=
  | ManagedBucketPolicyMember (cr : BucketPolicyMember ConditionedStatus)
  | ManagedOther (kind : string).

Arguments ManagedBucketPolicyMember {ConditionedStatus} cr.
Arguments ManagedOther {ConditionedStatus} kind.

(** ** State monad over the remote store and the call log *)

Record State (Policy World : Type) : Type := mkState {
  remote : World;
  calls : list (Call Policy)
}.

Arguments mkState {Policy World} remote calls.
Arguments remote {Policy World} s.
Arguments calls {Policy World} s.

Definition M (Policy World A : Type) : Type :=
  State Policy World -> A * State Policy World.

Definition ret {Policy World A} (a : A) : M Policy World A :=
  fun s => (a, s).

Definition bind {Policy World A B}
    (m : M Policy World A) (k : A -> M Policy World B) : M Policy World B :=
  fun s => let (a, s') := m s in k a s'.

Notation "'do' x <- m ; k" := (bind m (fun x => k))
  (at level 10, x name, m at level 100, k at level 200).

(** ** The four verbs of [bucketPolicyMemberExternal] *)

Section External.

Context {context Policy World ConditionedStatus Condition : Type}.
Context {bucketpolicy : Client context Policy World}.
Context {imports : Imports Policy ConditionedStatus Condition}.

Definition GetIamPolicy (bucket : string) (version : Z) (ctx : context)
    : M Policy World (Policy + error) :=
  fun s =>
    let (r, w) := GetIamPolicyDo bucket version ctx (remote s) in
    (r, mkState w (calls s ++ [CallGetIamPolicy bucket version r])).

Definition SetIamPolicy (bucket : string) (policy : Policy) (ctx : context)
    : M Policy World (Policy + error) :=
  fun s =>
    let (r, w) := SetIamPolicyDo bucket policy ctx (remote s) in
    (r, mkState w (calls s ++ [CallSetIamPolicy bucket policy r])).

(** [Observe] also hands back the managed resource, whose status it may
    have updated through the pointer. *)
Definition Observe (ctx : context) (mg : Managed ConditionedStatus)
    : M Policy World
        (Managed ConditionedStatus * (ExternalObservation * option error)) :=
  match mg with
  | ManagedOther _ =>
      ret (mg, (ExternalObservation_zero,
                Some (errorsNew errNotBucketPolicyMember)))
  | ManagedBucketPolicyMember cr =>
      do r <- GetIamPolicy (StringValue (Bucket (ForProvider (Spec cr))))
                PolicyVersion ctx;
      match r with
      | inr err =>
          ret (mg, (ExternalObservation_zero,
                    errorsWrap (Some err) errGetPolicy))
      | inl instance =>
          let changed :=
            snd (BindRoleToMember (ForProvider (Spec cr)) instance) in
          if negb changed then
            ret (ManagedBucketPolicyMember
                   {| Spec := Spec cr;
                      Status := SetConditions Available (Status cr) |},
                 ({| ResourceExists := true;
                     ResourceUpToDate := true;
                     ResourceLateInitialized := false |}, None))
          else
            ret (mg, (ExternalObservation_zero, None))
      end
  end.

Definition Create (ctx : context) (mg : Managed ConditionedStatus)
    : M Policy World (ExternalCreation * option error) :=
  match mg with
  | ManagedOther _ =>
      ret (ExternalCreation_zero, Some (errorsNew errNotBucketPolicyMember))
  | ManagedBucketPolicyMember cr =>
      do r <- GetIamPolicy (StringValue (Bucket (ForProvider (Spec cr))))
                PolicyVersion ctx;
      match r with
      | inr err =>
          ret (ExternalCreation_zero, errorsWrap (Some err) errGetPolicy)
      | inl instance =>
          let (instance', changed) :=
            BindRoleToMember (ForProvider (Spec cr)) instance in
          if negb changed then
            ret (ExternalCreation_zero, None)
          else
            do w <- SetIamPolicy
                      (StringValue (Bucket (ForProvider (Spec cr))))
                      instance' ctx;
            match w with
            | inr err =>
                ret (ExternalCreation_zero,
                     errorsWrap (Some err) errSetPolicy)
            | inl _ => ret (ExternalCreation_zero, None)
            end
      end
  end.

Definition Update (ctx : context) (mg : Managed ConditionedStatus)
    : M Policy World (ExternalUpdate * option error) :=
  do c <- Create ctx mg;
  ret (ExternalUpdate_zero, snd c).

Definition Delete (ctx : context) (mg : Managed ConditionedStatus)
    : M Policy World (option error) :=
  match mg with
  | ManagedOther _ => ret (Some (errorsNew errNotBucketPolicyMember))
  | ManagedBucketPolicyMember cr =>
      do r <- GetIamPolicy (StringValue (Bucket (ForProvider (Spec cr))))
                PolicyVersion ctx;
      match r with
      | inr err => ret (errorsWrap (Some err) errGetPolicy)
      | inl instance =>
          let (instance', changed) :=
            UnbindRoleFromMember (ForProvider (Spec cr)) instance in
          if negb changed then
            ret None
          else
            do w <- SetIamPolicy
                      (StringValue (Bucket (ForProvider (Spec cr))))
                      instance' ctx;
            match w with
            | inr err => ret (errorsWrap (Some err) errSetPolicy)
            | inl _ => ret None
            end
      end
  end.

(** The verbs as the managed reconciler sees them: one call, one error
    (or nil). *)
Inductive Verb : Type := VObserve | VCreate | VUpdate | VDelete.

Definition runVerb (v : Verb) (ctx : context)
    (mg : Managed ConditionedStatus) : M Policy World (option error) :=
  match v with
  | VObserve => do r <- Observe ctx mg; ret (snd (snd r))
  | VCreate => do r <- Create ctx mg; ret (snd r)
  | VUpdate => do r <- Update ctx mg; ret (snd r)
  | VDelete => Delete ctx mg
  end.

(** The calls a run appended to the log. *)
Definition issued (s s' : State Policy World) (cs : list (Call Policy))
    : Prop :=
  calls s' = calls s ++ cs.

End External.

(** ** The membership resolver *)

(** Modelled from the spec: the policy document that package
    [bucketpolicy] works on ([storage.Policy]), which is not part of this
    file.  Section 3 gives it a version token and a mapping from role to
    set of members; section 4.2 allows the bindings map to be missing. *)
Record PolicyDocument : Type := {
  etag : string;
  bindings : option (gmap string (gset string))
}.

(** Modelled from the spec: a missing bindings map is read as the empty
    map (section 4.2). *)
Definition bindingsOf (doc : PolicyDocument) : gmap string (gset string) :=
  default ∅ (bindings doc).

(** Modelled from the spec: the members bound to [role] in [doc]; none
    when the role has no entry. *)
Definition membersOf (doc : PolicyDocument) (role : string) : gset string :=
  default ∅ (bindingsOf doc !! role).

(** Modelled from the spec: [ensurePresent] of section 4.2, the helper
    [bucketpolicy.BindRoleToMember] that is not part of this file.  If the
    member is already bound to the role the document comes back unchanged
    with [false]; otherwise the member is inserted into the role's set
    (the entry is created if absent) and the flag is [true]. *)
Definition ensurePresent (doc : PolicyDocument)
    (binding : BucketPolicyMemberParameters) : PolicyDocument * bool :=
  if decide (Member binding ∈ membersOf doc (Role binding)) then
    (doc, false)
  else
    ({| etag := etag doc;
        bindings :=
          Some (<[Role binding :=
                    {[Member binding]} ∪ membersOf doc (Role binding)]>
                  (bindingsOf doc)) |},
     true).

(** Modelled from the spec: [ensureAbsent] of section 4.2, the helper
    [bucketpolicy.UnbindRoleFromMember] that is not part of this file.  If
    the member is not bound to the role the document comes back unchanged
    with [false]; otherwise it is removed, the role's entry is pruned when
    its set becomes empty, and the flag is [true]. *)
Definition ensureAbsent (doc : PolicyDocument)
    (binding : BucketPolicyMemberParameters) : PolicyDocument * bool :=
  if decide (Member binding ∈ membersOf doc (Role binding)) then
    let members := membersOf doc (Role binding) ∖ {[Member binding]} in
    ({| etag := etag doc;
        bindings :=
          Some (if decide (members = ∅)
                then delete (Role binding) (bindingsOf doc)
                else <[Role binding := members]> (bindingsOf doc)) |},
     true)
  else
    (doc, false).

(** ** An instance: an in-memory policy store *)

(** The per-call context: live, or already cancelled. *)
Inductive memContext : Type := Background | Canceled.

Definition errContextCanceled : error := errorsNew "context canceled".

(** Modelled from the spec: the policy client of section 4.1 over a store
    that maps a bucket to its policy document.  A fetch answers with the
    stored document or NotFound; a replace is rejected with a version
    conflict unless it carries the token of the stored document, and a
    successful one gives the document a new token. *)
Definition memGetIamPolicy (bucket : string) (version : Z) (ctx : memContext)
    (w : gmap string PolicyDocument)
    : (PolicyDocument + error) * gmap string PolicyDocument :=
  match ctx with
  | Canceled => (inr errContextCanceled, w)
  | Background =>
      match w !! bucket with
      | Some doc => (inl doc, w)
      | None => (inr (googleapiError StatusNotFound "notFound"), w)
      end
  end.

Definition memSetIamPolicy (bucket : string) (policy : PolicyDocument)
    (ctx : memContext) (w : gmap string PolicyDocument)
    : (PolicyDocument + error) * gmap string PolicyDocument :=
  match ctx with
  | Canceled => (inr errContextCanceled, w)
  | Background =>
      match w !! bucket with
      | None => (inr (googleapiError StatusNotFound "notFound"), w)
      | Some doc =>
          if decide (etag doc = etag policy) then
            let stored :=
              {| etag := etag policy +:+ "+";
                 bindings := bindings policy |} in
            (inl stored, <[bucket := stored]> w)
          else
            (inr (googleapiError StatusPreconditionFailed "conditionNotMet"),
             w)
      end
  end.

#[export] Instance memClient
    : Client memContext PolicyDocument (gmap string PolicyDocument) := {
  GetIamPolicyDo := memGetIamPolicy;
  SetIamPolicyDo := memSetIamPolicy
}.

(** Modelled from the spec: an instance of the imports, with the two
    helpers of section 4.2, the richest policy representation for
    [PolicyVersion] (section 4.1), and a status that is the list of the
    conditions set so far. *)
#[export] Instance memImports
    : Imports PolicyDocument (list string) string := {
  errGetPolicy := "cannot get policy";
  errSetPolicy := "cannot set policy";
  PolicyVersion := 3;
  StringValue := default "";
  BindRoleToMember := fun in_ policy => ensurePresent policy in_;
  UnbindRoleFromMember := fun in_ policy => ensureAbsent policy in_;
  Available := "Ready";
  SetConditions := fun c st => if decide (c ∈ st) then st else st ++ [c]
}.

(** The policy representation versions a store supports, and what it is
    for one of them to be the richest. *)
Definition supportedVersions : list Z := [0; 1; 3]%Z.

Definition richestVersion (supported : list Z) (v : Z) : Prop :=
  v ∈ supported ∧ Forall (fun u => (u <= v)%Z) supported.

(** Sample data: user a as viewer of bucket b. *)
Definition viewerA : BucketPolicyMemberParameters :=
  {| Bucket := Some "b"; Role := "viewer"; Member := "user:a" |}.

Definition crViewerA : BucketPolicyMember (list string) :=
  {| Spec := {| ForProvider := viewerA |}; Status := [] |}.

Definition docEmpty : PolicyDocument :=
  {| etag := "e0"; bindings := Some ∅ |}.

Definition docViewerA : PolicyDocument :=
  {| etag := "e1";
     bindings := Some {[ "viewer" := {[ "user:a" ]} ]} |}.

Definition docViewerAB : PolicyDocument :=
  {| etag := "e2";
     bindings := Some {[ "viewer" := {[ "user:a"; "user:b" ]} ]} |}.

Definition start (w : gmap string PolicyDocument)
    : State PolicyDocument (gmap string PolicyDocument) :=
  mkState w [].

(** Modelled from the spec: the race of section 5.  Between the fetch and
    the replace another writer stores the document anew, so the token the
    fetch handed out is stale by the time it is written back. *)
Definition racyGetIamPolicy (bucket : string) (version : Z) (ctx : memContext)
    (w : gmap string PolicyDocument)
    : (PolicyDocument + error) * gmap string PolicyDocument :=
  match memGetIamPolicy bucket version ctx w with
  | (inl doc, w') =>
      (inl doc,
       <[bucket := {| etag := etag doc +:+ "+";
                      bindings := bindings doc |}]> w')
  | other => other
  end.

Definition racyClient
    : Client memContext PolicyDocument (gmap string PolicyDocument) := {|
  GetIamPolicyDo := racyGetIamPolicy;
  SetIamPolicyDo := memSetIamPolicy
|}.

Definition viewerB : BucketPolicyMemberParameters :=
  {| Bucket := Some "b"; Role := "viewer"; Member := "user:b" |}.

Definition crViewerB : BucketPolicyMember (list string) :=
  {| Spec := {| ForProvider := viewerB |}; Status := [] |}.

(** ** Reading the call log *)

(** The answer recorded with a call, and whether the call went through. *)
Definition response {Policy} (c : Call Policy) : Policy + error :=
  match c with
  | CallGetIamPolicy _ _ r => r
  | CallSetIamPolicy _ _ r => r
  end.

Definition succeeded {Policy} (c : Call Policy) : bool :=
  match response c with
  | inl _ => true
  | inr _ => false
  end.

(** The message a verb wraps around the failure of a call: [errGetPolicy]
    after [GetIamPolicy], [errSetPolicy] after [SetIamPolicy]. *)
Definition wrapMessage {Policy ConditionedStatus Condition}
    {imports : Imports Policy ConditionedStatus Condition}
    (c : Call Policy) : string :=
  match c with
  | CallGetIamPolicy _ _ _ => errGetPolicy
  | CallSetIamPolicy _ _ _ => errSetPolicy
  end.

(** ** The connecter *)

(** What [Connect] calls: [gcp.GetAuthInfo], which reads the provider
    configuration of the resource through the kube client and answers
    with a project and client options, [storage.NewService],
    [storage.NewBucketsService], whose result is the [bucketpolicy.Client]
    of the verbs, and the wrap message [errNewClient] of package
    [storage]. *)
Class ConnectImports
    (context Kube ConditionedStatus ClientOption Service Policy World : Type)
    : Type := {
  errNewClient : string;
  GetAuthInfo :
    context -> Kube -> Managed ConditionedStatus
    -> (string * ClientOption) + error;
  NewService : context -> ClientOption -> Service + error;
  NewBucketsService : Service -> Client context Policy World
}.

Record bucketPolicyMemberConnecter (Kube : Type) : Type := {
  client : Kube
}.

Arguments client {Kube} _.

Record bucketPolicyMemberExternal (context Kube Policy World : Type)
    : Type := {
  kube : Kube;
  bucketpolicy : Client context Policy World
}.

Arguments kube {context Kube Policy World} _.
Arguments bucketpolicy {context Kube Policy World} _.

(** [Connect]: the external client, or nil and an error. *)
Definition Connect
    {context Kube ConditionedStatus ClientOption Service Policy World : Type}
    {connectImports : ConnectImports context Kube ConditionedStatus
                        ClientOption Service Policy World}
    (c : bucketPolicyMemberConnecter Kube) (ctx : context)
    (mg : Managed ConditionedStatus)
    : option (bucketPolicyMemberExternal context Kube Policy World)
      * option error :=
  match GetAuthInfo ctx (client c) mg with
  | inr err => (None, Some err)
  | inl (_, opts) =>
      match NewService ctx opts with
      | inr err => (None, errorsWrap (Some err) errNewClient)
      | inl s =>
          (Some {| kube := client c; bucketpolicy := NewBucketsService s |},
           None)
      end
  end.

(** * Properties of the verbs *)

Section ExternalFacts.

Context {context Policy World ConditionedStatus Condition : Type}.
Context {bucketpolicy : Client context Policy World}.
Context {imports : Imports Policy ConditionedStatus Condition}.

Implicit Types (ctx : context) (s : State Policy World) (w : World).
Implicit Types (cr : BucketPolicyMember ConditionedStatus).
Implicit Types (mg : Managed ConditionedStatus) (instance : Policy).

Local Abbreviation bucketOf cr := (StringValue (Bucket (ForProvider (Spec cr)))).
Local Abbreviation paramsOf cr := (ForProvider (Spec cr)).
Local Abbreviation upToDate :=
  {| ResourceExists := true;
     ResourceUpToDate := true;
     ResourceLateInitialized := false |}.

(** ** One equation per verb: the result and the final state, by cases
    on what the remote calls answer. *)

Lemma Observe_run ctx cr s r w :
  GetIamPolicyDo (bucketOf cr) PolicyVersion ctx (remote s) = (r, w) ->
  Observe ctx (ManagedBucketPolicyMember cr) s =
    (match r with
     | inr err =>
         (ManagedBucketPolicyMember cr,
          (ExternalObservation_zero,
           Some (errorsWithMessage err errGetPolicy)))
     | inl instance =>
         if snd (BindRoleToMember (paramsOf cr) instance) then
           (ManagedBucketPolicyMember cr, (ExternalObservation_zero, None))
         else
           (ManagedBucketPolicyMember
              {| Spec := Spec cr;
                 Status := SetConditions Available (Status cr) |},
            (upToDate, None))
     end,
     mkState w
       (calls s ++ [CallGetIamPolicy (bucketOf cr) PolicyVersion r])).
Proof.
  intros Hget. unfold Observe, bind, GetIamPolicy, ret. rewrite Hget.
  destruct r as [instance | err]; [| reflexivity].
  destruct (snd (BindRoleToMember (paramsOf cr) instance)); reflexivity.
Qed.

Lemma Create_run_fetch_error ctx cr s err w :
  GetIamPolicyDo (bucketOf cr) PolicyVersion ctx (remote s) = (inr err, w) ->
  Create ctx (ManagedBucketPolicyMember cr) s =
    ((ExternalCreation_zero, Some (errorsWithMessage err errGetPolicy)),
     mkState w
       (calls s ++ [CallGetIamPolicy (bucketOf cr) PolicyVersion (inr err)])).
Proof.
  intros Hget. unfold Create, bind, GetIamPolicy, ret. now rewrite Hget.
Qed.

Lemma Create_run_unchanged ctx cr s instance w :
  GetIamPolicyDo (bucketOf cr) PolicyVersion ctx (remote s)
    = (inl instance, w) ->
  snd (BindRoleToMember (paramsOf cr) instance) = false ->
  Create ctx (ManagedBucketPolicyMember cr) s =
    ((ExternalCreation_zero, None),
     mkState w
       (calls s
          ++ [CallGetIamPolicy (bucketOf cr) PolicyVersion (inl instance)])).
Proof.
  intros Hget Hsame. unfold Create, bind, GetIamPolicy, ret. rewrite Hget.
  destruct (BindRoleToMember (paramsOf cr) instance) as [instance' changed].
  simpl in Hsame. now subst changed.
Qed.

Lemma Create_run_changed ctx cr s instance w resp w' :
  GetIamPolicyDo (bucketOf cr) PolicyVersion ctx (remote s)
    = (inl instance, w) ->
  snd (BindRoleToMember (paramsOf cr) instance) = true ->
  SetIamPolicyDo (bucketOf cr)
    (fst (BindRoleToMember (paramsOf cr) instance)) ctx w = (resp, w') ->
  Create ctx (ManagedBucketPolicyMember cr) s =
    ((ExternalCreation_zero,
      match resp with
      | inr err => Some (errorsWithMessage err errSetPolicy)
      | inl _ => None
      end),
     mkState w'
       (calls s
          ++ [CallGetIamPolicy (bucketOf cr) PolicyVersion (inl instance);
              CallSetIamPolicy (bucketOf cr)
                (fst (BindRoleToMember (paramsOf cr) instance)) resp])).
Proof.
  intros Hget Hchg Hset.
  unfold Create, bind, GetIamPolicy, SetIamPolicy, ret. rewrite Hget.
  destruct (BindRoleToMember (paramsOf cr) instance) as [instance' changed].
  simpl in Hchg, Hset. subst changed. simpl. rewrite Hset.
  rewrite <- app_assoc. now destruct resp.
Qed.

Lemma Delete_run_fetch_error ctx cr s err w :
  GetIamPolicyDo (bucketOf cr) PolicyVersion ctx (remote s) = (inr err, w) ->
  Delete ctx (ManagedBucketPolicyMember cr) s =
    (Some (errorsWithMessage err errGetPolicy),
     mkState w
       (calls s ++ [CallGetIamPolicy (bucketOf cr) PolicyVersion (inr err)])).
Proof.
  intros Hget. unfold Delete, bind, GetIamPolicy, ret. now rewrite Hget.
Qed.

Lemma Delete_run_unchanged ctx cr s instance w :
  GetIamPolicyDo (bucketOf cr) PolicyVersion ctx (remote s)
    = (inl instance, w) ->
  snd (UnbindRoleFromMember (paramsOf cr) instance) = false ->
  Delete ctx (ManagedBucketPolicyMember cr) s =
    (None,
     mkState w
       (calls s
          ++ [CallGetIamPolicy (bucketOf cr) PolicyVersion (inl instance)])).
Proof.
  intros Hget Hsame. unfold Delete, bind, GetIamPolicy, ret. rewrite Hget.
  destruct (UnbindRoleFromMember (paramsOf cr) instance)
    as [instance' changed].
  simpl in Hsame. now subst changed.
Qed.

Lemma Delete_run_changed ctx cr s instance w resp w' :
  GetIamPolicyDo (bucketOf cr) PolicyVersion ctx (remote s)
    = (inl instance, w) ->
  snd (UnbindRoleFromMember (paramsOf cr) instance) = true ->
  SetIamPolicyDo (bucketOf cr)
    (fst (UnbindRoleFromMember (paramsOf cr) instance)) ctx w = (resp, w') ->
  Delete ctx (ManagedBucketPolicyMember cr) s =
    (match resp with
     | inr err => Some (errorsWithMessage err errSetPolicy)
     | inl _ => None
     end,
     mkState w'
       (calls s
          ++ [CallGetIamPolicy (bucketOf cr) PolicyVersion (inl instance);
              CallSetIamPolicy (bucketOf cr)
                (fst (UnbindRoleFromMember (paramsOf cr) instance)) resp])).
Proof.
  intros Hget Hchg Hset.
  unfold Delete, bind, GetIamPolicy, SetIamPolicy, ret. rewrite Hget.
  destruct (UnbindRoleFromMember (paramsOf cr) instance)
    as [instance' changed].
  simpl in Hchg, Hset. subst changed. simpl. rewrite Hset.
  rewrite <- app_assoc. now destruct resp.
Qed.

Lemma Update_run ctx mg s :
  Update ctx mg s =
    ((ExternalUpdate_zero, snd (fst (Create ctx mg s))),
     snd (Create ctx mg s)).
Proof.
  unfold Update, bind, ret. now destruct (Create ctx mg s) as [[c err] s'].
Qed.

Lemma verbs_reject_other v ctx kind s :
  runVerb v ctx (ManagedOther kind) s
    = (Some (errorsNew errNotBucketPolicyMember), s).
Proof. now destruct v. Qed.


Lemma runVerb_run v ctx mg s :
  runVerb v ctx mg s =
    match v with
    | VObserve => (snd (snd (fst (Observe ctx mg s))), snd (Observe ctx mg s))
    | VCreate | VUpdate =>
        (snd (fst (Create ctx mg s)), snd (Create ctx mg s))
    | VDelete => Delete ctx mg s
    end.
Proof.
  destruct v; unfold runVerb; try reflexivity.
  - unfold bind, ret. now destruct (Observe ctx mg s) as [[mg' [obs err]] s'].
  - unfold bind, ret. now destruct (Create ctx mg s) as [[c err] s'].
  - unfold bind at 1, ret. rewrite Update_run. reflexivity.
Qed.

(** The two shapes of a run: the log grows by the fetch alone, or by
    the fetch and the replace.  [step] rewrites the verb with its
    equation once the fetch is stated on the state at hand. *)
Ltac issues_one Hget step :=
  eexists; split;
  [ let s2 := fresh "s2" in
    let Hs2 := fresh "Hs2" in
    intros s2 Hs2; rewrite <- Hs2 in Hget;
    rewrite runVerb_run; step; reflexivity
  | left; eauto ].

Ltac issues_two Hget step :=
  eexists; split;
  [ let s2 := fresh "s2" in
    let Hs2 := fresh "Hs2" in
    intros s2 Hs2; rewrite <- Hs2 in Hget;
    rewrite runVerb_run; step; reflexivity
  | right; do 5 eexists; repeat split; eauto ].

(** What a verb issues for a BucketPolicyMember depends on the remote
    store alone, and is either one fetch, or one fetch followed by one
    replace of the document a helper made of the fetched one. *)
Lemma runVerb_issues v ctx cr s :
  ∃ cs,
    (∀ s2, remote s2 = remote s ->
           issued s2 (snd (runVerb v ctx (ManagedBucketPolicyMember cr) s2)) cs)
    ∧ ((∃ r w,
          GetIamPolicyDo (bucketOf cr) PolicyVersion ctx (remote s) = (r, w)
          ∧ cs = [CallGetIamPolicy (bucketOf cr) PolicyVersion r])
       ∨ (∃ instance w doc resp w',
          GetIamPolicyDo (bucketOf cr) PolicyVersion ctx (remote s)
            = (inl instance, w)
          ∧ (doc = fst (BindRoleToMember (paramsOf cr) instance)
             ∨ doc = fst (UnbindRoleFromMember (paramsOf cr) instance))
          ∧ SetIamPolicyDo (bucketOf cr) doc ctx w = (resp, w')
          ∧ cs = [CallGetIamPolicy (bucketOf cr) PolicyVersion (inl instance);
                  CallSetIamPolicy (bucketOf cr) doc resp])).
Proof.
  destruct (GetIamPolicyDo (bucketOf cr) PolicyVersion ctx (remote s))
    as [r w] eqn:Hget.
  destruct v, r as [instance | err].
  - issues_one Hget ltac:(rewrite (Observe_run _ _ _ _ _ Hget)).
  - issues_one Hget ltac:(rewrite (Observe_run _ _ _ _ _ Hget)).
  - destruct (snd (BindRoleToMember (paramsOf cr) instance)) eqn:Hflag.
    + destruct (SetIamPolicyDo (bucketOf cr)
                  (fst (BindRoleToMember (paramsOf cr) instance)) ctx w)
        as [resp w'] eqn:Hset.
      issues_two Hget
        ltac:(rewrite (Create_run_changed _ _ _ _ _ _ _ Hget Hflag Hset)).
    + issues_one Hget
        ltac:(rewrite (Create_run_unchanged _ _ _ _ _ Hget Hflag)).
  - issues_one Hget ltac:(rewrite (Create_run_fetch_error _ _ _ _ _ Hget)).
  - destruct (snd (BindRoleToMember (paramsOf cr) instance)) eqn:Hflag.
    + destruct (SetIamPolicyDo (bucketOf cr)
                  (fst (BindRoleToMember (paramsOf cr) instance)) ctx w)
        as [resp w'] eqn:Hset.
      issues_two Hget
        ltac:(rewrite (Create_run_changed _ _ _ _ _ _ _ Hget Hflag Hset)).
    + issues_one Hget
        ltac:(rewrite (Create_run_unchanged _ _ _ _ _ Hget Hflag)).
  - issues_one Hget ltac:(rewrite (Create_run_fetch_error _ _ _ _ _ Hget)).
  - destruct (snd (UnbindRoleFromMember (paramsOf cr) instance)) eqn:Hflag.
    + destruct (SetIamPolicyDo (bucketOf cr)
                  (fst (UnbindRoleFromMember (paramsOf cr) instance)) ctx w)
        as [resp w'] eqn:Hset.
      issues_two Hget
        ltac:(rewrite (Delete_run_changed _ _ _ _ _ _ _ Hget Hflag Hset)).
    + issues_one Hget
        ltac:(rewrite (Delete_run_unchanged _ _ _ _ _ Hget Hflag)).
  - issues_one Hget ltac:(rewrite (Delete_run_fetch_error _ _ _ _ _ Hget)).
Qed.

(** ** Observe *)

(** C1.  For a BucketPolicyMember whose policy fetch succeeds, Observe
    returns a nil error; the observation is
    [{ResourceExists: true, ResourceUpToDate: true}] exactly when the
    helper reports no change (the desired pair is already in the fetched
    document), and has [ResourceExists] false otherwise.  And whatever the
    resource and whatever the remote answers, the calls Observe appends to
    the log contain no SetIamPolicy. *)
Theorem Observe_reports_membership ctx mg s :
  (∃ cs, issued s (snd (Observe ctx mg s)) cs
         ∧ Forall (fun c => isSetIamPolicy c = false) cs)
  ∧ ∀ cr instance w,
      mg = ManagedBucketPolicyMember cr ->
      GetIamPolicyDo (bucketOf cr) PolicyVersion ctx (remote s)
        = (inl instance, w) ->
      let changed := snd (BindRoleToMember (paramsOf cr) instance) in
      let obs := fst (snd (fst (Observe ctx mg s))) in
      let err := snd (snd (fst (Observe ctx mg s))) in
      err = None
      ∧ (obs = upToDate <-> changed = false)
      ∧ (changed = true -> ResourceExists obs = false).
Proof.
  split.
  - destruct mg as [cr | kind].
    + destruct (GetIamPolicyDo (bucketOf cr) PolicyVersion ctx (remote s))
        as [r w] eqn:Hget.
      rewrite (Observe_run _ _ _ _ _ Hget). eexists; split; [reflexivity |].
      repeat constructor.
    + exists []. split; [| constructor].
      unfold issued; simpl. now rewrite app_nil_r.
  - intros cr instance w -> Hget. cbv zeta.
    rewrite (Observe_run _ _ _ _ _ Hget).
    destruct (snd (BindRoleToMember (paramsOf cr) instance)); simpl.
    + repeat split; intros; discriminate.
    + repeat split; intros; discriminate.
Qed.

(** C10.  Observe touches the status of the resource it is given only on
    the up-to-date branch: the Available condition is set when the fetch
    succeeds and the helper reports no change; on the drift branch, when
    the fetch fails and when the resource is of another kind, the resource
    comes back as it was. *)
Theorem Observe_sets_Available_only_up_to_date ctx mg s :
  let mg' := fst (fst (Observe ctx mg s)) in
  (∀ cr instance w,
      mg = ManagedBucketPolicyMember cr ->
      GetIamPolicyDo (bucketOf cr) PolicyVersion ctx (remote s)
        = (inl instance, w) ->
      (snd (BindRoleToMember (paramsOf cr) instance) = false ->
       mg' = ManagedBucketPolicyMember
               {| Spec := Spec cr;
                  Status := SetConditions Available (Status cr) |})
      ∧ (snd (BindRoleToMember (paramsOf cr) instance) = true -> mg' = mg))
  ∧ (∀ cr err w,
      mg = ManagedBucketPolicyMember cr ->
      GetIamPolicyDo (bucketOf cr) PolicyVersion ctx (remote s)
        = (inr err, w) ->
      mg' = mg)
  ∧ (∀ kind, mg = ManagedOther kind -> mg' = mg).
Proof.
  cbv zeta. split; [| split].
  - intros cr instance w -> Hget. rewrite (Observe_run _ _ _ _ _ Hget).
    split; intros Hflag; now rewrite Hflag.
  - intros cr err w -> Hget. now rewrite (Observe_run _ _ _ _ _ Hget).
  - now intros kind ->.
Qed.

(** ** Create and Update *)

(** C2.  When the fetched document already holds the desired pair (the
    helper reports no change), Create returns a nil error, the only call
    it issues is the fetch, no SetIamPolicy among them, and the remote
    store is as the fetch left it. *)
Theorem Create_present_is_noop ctx cr s instance w :
  GetIamPolicyDo (bucketOf cr) PolicyVersion ctx (remote s)
    = (inl instance, w) ->
  snd (BindRoleToMember (paramsOf cr) instance) = false ->
  let r := Create ctx (ManagedBucketPolicyMember cr) s in
  snd (fst r) = None
  ∧ issued s (snd r)
      [CallGetIamPolicy (bucketOf cr) PolicyVersion (inl instance)]
  ∧ filter (fun c => isSetIamPolicy c = true) (calls (snd r))
      = filter (fun c => isSetIamPolicy c = true) (calls s)
  ∧ remote (snd r) = w.
Proof.
  intros Hget Hsame. cbv zeta. rewrite (Create_run_unchanged _ _ _ _ _ Hget Hsame).
  unfold issued; simpl. repeat split.
  rewrite filter_app. simpl. rewrite filter_cons_False by (simpl; discriminate).
  rewrite filter_nil. now rewrite app_nil_r.
Qed.

(** C4.  Update is Create: it returns the error Create returns and leaves
    the remote store and the call log exactly as Create leaves them. *)
Theorem Update_delegates_to_Create ctx mg s :
  snd (fst (Update ctx mg s)) = snd (fst (Create ctx mg s))
  ∧ snd (Update ctx mg s) = snd (Create ctx mg s).
Proof. now rewrite Update_run. Qed.

(** ** Delete *)

(** C3.  Delete fetches the document and computes the removal of the pair.
    If the helper reports no change, Delete returns nil and the fetch is
    the only call it issues.  If it reports a change, Delete issues the
    fetch and then exactly one SetIamPolicy, for the same bucket and with
    the mutated document, and returns nil when that write succeeds. *)
Theorem Delete_removes_pair ctx cr s instance w :
  GetIamPolicyDo (bucketOf cr) PolicyVersion ctx (remote s)
    = (inl instance, w) ->
  let mutated := fst (UnbindRoleFromMember (paramsOf cr) instance) in
  let changed := snd (UnbindRoleFromMember (paramsOf cr) instance) in
  let r := Delete ctx (ManagedBucketPolicyMember cr) s in
  (changed = false ->
     fst r = None
     ∧ issued s (snd r)
         [CallGetIamPolicy (bucketOf cr) PolicyVersion (inl instance)]
     ∧ remote (snd r) = w)
  ∧ (changed = true ->
     ∃ resp w',
       SetIamPolicyDo (bucketOf cr) mutated ctx w = (resp, w')
       ∧ issued s (snd r)
           [CallGetIamPolicy (bucketOf cr) PolicyVersion (inl instance);
            CallSetIamPolicy (bucketOf cr) mutated resp]
       ∧ remote (snd r) = w'
       ∧ ((∃ stored, resp = inl stored) -> fst r = None)).
Proof.
  intros Hget. cbv zeta. split.
  - intros Hsame. rewrite (Delete_run_unchanged _ _ _ _ _ Hget Hsame).
    now unfold issued.
  - intros Hchg.
    destruct (SetIamPolicyDo (bucketOf cr)
                (fst (UnbindRoleFromMember (paramsOf cr) instance)) ctx w)
      as [resp w'] eqn:Hset.
    exists resp, w'. rewrite (Delete_run_changed _ _ _ _ _ _ _ Hget Hchg Hset).
    unfold issued; simpl. repeat split.
    now intros [stored ->].
Qed.

(** ** All verbs *)

(** C5.  In one call of any verb, every SetIamPolicy is issued right after
    a GetIamPolicy of the same call and for the same bucket, and the
    document it writes is the one that fetch returned, passed through a
    helper in local memory; so it carries the version token of that fetch
    whenever the helpers leave the token alone.  The calls issued depend on
    the remote store only, not on the log of earlier calls. *)
Theorem replace_follows_fetch {T : Type} (token : Policy -> T) v ctx mg s :
  (∀ p d, token (fst (BindRoleToMember p d)) = token d) ->
  (∀ p d, token (fst (UnbindRoleFromMember p d)) = token d) ->
  ∃ cs,
    issued s (snd (runVerb v ctx mg s)) cs
    ∧ (∀ s2, remote s2 = remote s -> issued s2 (snd (runVerb v ctx mg s2)) cs)
    ∧ ∀ bucket doc resp,
        CallSetIamPolicy bucket doc resp ∈ cs ->
        ∃ cr instance w,
          mg = ManagedBucketPolicyMember cr
          ∧ GetIamPolicyDo bucket PolicyVersion ctx (remote s)
              = (inl instance, w)
          ∧ cs = [CallGetIamPolicy bucket PolicyVersion (inl instance);
                  CallSetIamPolicy bucket doc resp]
          ∧ (doc = fst (BindRoleToMember (paramsOf cr) instance)
             ∨ doc = fst (UnbindRoleFromMember (paramsOf cr) instance))
          ∧ token doc = token instance.
Proof.
  intros Hbind Hunbind. destruct mg as [cr | kind].
  - destruct (runVerb_issues v ctx cr s) as [cs [Hiss Hshape]].
    exists cs. split; [now apply Hiss |]. split; [exact Hiss |].
    intros bucket doc resp Hin.
    destruct Hshape as [(r & w & _ & ->) | (instance & w & doc' & resp' & w'
                                            & Hget & Hdoc & _ & ->)].
    + apply list_elem_of_singleton in Hin. discriminate.
    + apply elem_of_cons in Hin as [Hin | Hin]; [discriminate |].
      apply list_elem_of_singleton in Hin. injection Hin as -> -> ->.
      exists cr, instance, w. repeat split; try assumption.
      destruct Hdoc as [-> | ->]; [apply Hbind | apply Hunbind].
  - exists []. split; [| split].
    + rewrite verbs_reject_other. unfold issued; simpl. now rewrite app_nil_r.
    + intros s2 _. rewrite verbs_reject_other. unfold issued; simpl.
      now rewrite app_nil_r.
    + intros bucket doc resp Hin. now apply elem_of_nil in Hin.
Qed.

(** C9.  Every fetch that Observe, Create, Update or Delete issues asks
    for [PolicyVersion]; when that constant is the richest representation
    the store supports, every fetch asks for the richest one.  For a
    BucketPolicyMember the first call of each verb is such a fetch. *)
Theorem fetch_requests_richest_version (supported : list Z) v ctx mg s :
  richestVersion supported PolicyVersion ->
  ∃ cs,
    issued s (snd (runVerb v ctx mg s)) cs
    ∧ (∀ cr, mg = ManagedBucketPolicyMember cr ->
         ∃ resp,
           head cs = Some (CallGetIamPolicy (bucketOf cr) PolicyVersion resp))
    ∧ ∀ bucket version resp,
        CallGetIamPolicy bucket version resp ∈ cs ->
        version = PolicyVersion ∧ richestVersion supported version.
Proof.
  intros Hrich. destruct mg as [cr | kind].
  - destruct (runVerb_issues v ctx cr s) as [cs [Hiss Hshape]].
    exists cs. split; [now apply Hiss |].
    destruct Hshape as [(r & w & _ & ->) | (instance & w & doc & resp' & w'
                                            & _ & _ & _ & ->)].
    + split.
      * intros cr' [= <-]. now exists r.
      * intros bucket version resp Hin.
        apply list_elem_of_singleton in Hin. injection Hin as -> -> ->.
        now split.
    + split.
      * intros cr' [= <-]. now exists (inl instance).
      * intros bucket version resp Hin.
        apply elem_of_cons in Hin as [Hin | Hin].
        -- injection Hin as -> -> ->. now split.
        -- apply list_elem_of_singleton in Hin. discriminate.
  - exists []. split; [| split].
    + rewrite verbs_reject_other. unfold issued; simpl. now rewrite app_nil_r.
    + intros cr [=].
    + intros bucket version resp Hin. now apply elem_of_nil in Hin.
Qed.

(** ** Failures *)

(** C6, as the code has it.  A fetch that fails with NotFound is handled
    like any other failed fetch: Observe returns the zero observation
    (ResourceExists false) together with the error, wrapped with
    [errGetPolicy]; the wrapped error is still a NotFound. *)
Theorem Observe_returns_NotFound ctx cr s err w :
  GetIamPolicyDo (bucketOf cr) PolicyVersion ctx (remote s) = (inr err, w) ->
  IsErrorNotFound err = true ->
  let r := fst (Observe ctx (ManagedBucketPolicyMember cr) s) in
  fst (snd r) = ExternalObservation_zero
  ∧ snd (snd r) = Some (errorsWithMessage err errGetPolicy)
  ∧ IsErrorNotFound (errorsWithMessage err errGetPolicy) = true.
Proof.
  intros Hget Hnf. cbv zeta. rewrite (Observe_run _ _ _ _ _ Hget).
  now repeat split.
Qed.

(** C7, as the code has it.  Whatever the verb, a failed fetch is returned
    wrapped with [errGetPolicy] and ends the call, and a failed replace is
    returned wrapped with [errSetPolicy] and ends the call: nothing is
    swallowed, nothing is tried again.  The wrap tells the fetch stage
    from the write stage as soon as the two messages differ; it does not
    tell the verbs apart. *)
Theorem failures_wrapped_by_stage v ctx cr s :
  let mg := ManagedBucketPolicyMember cr in
  (∀ err w,
     GetIamPolicyDo (bucketOf cr) PolicyVersion ctx (remote s) = (inr err, w) ->
     fst (runVerb v ctx mg s) = Some (errorsWithMessage err errGetPolicy)
     ∧ issued s (snd (runVerb v ctx mg s))
         [CallGetIamPolicy (bucketOf cr) PolicyVersion (inr err)])
  ∧ (∀ instance w doc err w',
     GetIamPolicyDo (bucketOf cr) PolicyVersion ctx (remote s)
       = (inl instance, w) ->
     ((v = VCreate ∨ v = VUpdate)
      ∧ BindRoleToMember (paramsOf cr) instance = (doc, true))
     ∨ (v = VDelete
        ∧ UnbindRoleFromMember (paramsOf cr) instance = (doc, true)) ->
     SetIamPolicyDo (bucketOf cr) doc ctx w = (inr err, w') ->
     fst (runVerb v ctx mg s) = Some (errorsWithMessage err errSetPolicy)
     ∧ issued s (snd (runVerb v ctx mg s))
         [CallGetIamPolicy (bucketOf cr) PolicyVersion (inl instance);
          CallSetIamPolicy (bucketOf cr) doc (inr err)])
  ∧ (errGetPolicy ≠ errSetPolicy ->
     ∀ err, errorsWrap (Some err) errGetPolicy
            ≠ errorsWrap (Some err) errSetPolicy).
Proof.
  cbv zeta. split; [| split].
  - intros err w Hget. rewrite runVerb_run. destruct v.
    + now rewrite (Observe_run _ _ _ _ _ Hget).
    + now rewrite (Create_run_fetch_error _ _ _ _ _ Hget).
    + now rewrite (Create_run_fetch_error _ _ _ _ _ Hget).
    + now rewrite (Delete_run_fetch_error _ _ _ _ _ Hget).
  - intros instance w doc err w' Hget Hmut Hset. rewrite runVerb_run.
    destruct Hmut as [[Hv Hmut] | [-> Hmut]].
    + assert (Hflag : snd (BindRoleToMember (paramsOf cr) instance) = true)
        by now rewrite Hmut.
      assert (Hdoc : fst (BindRoleToMember (paramsOf cr) instance) = doc)
        by now rewrite Hmut.
      rewrite <- Hdoc in Hset.
      destruct Hv as [-> | ->];
        rewrite (Create_run_changed _ _ _ _ _ _ _ Hget Hflag Hset);
        now rewrite Hdoc.
    + assert (Hflag : snd (UnbindRoleFromMember (paramsOf cr) instance) = true)
        by now rewrite Hmut.
      assert (Hdoc : fst (UnbindRoleFromMember (paramsOf cr) instance) = doc)
        by now rewrite Hmut.
      rewrite <- Hdoc in Hset.
      rewrite (Delete_run_changed _ _ _ _ _ _ _ Hget Hflag Hset).
      now rewrite Hdoc.
  - intros Hne err [= Heq]. now apply Hne.
Qed.

End ExternalFacts.

(** * The membership resolver *)

Lemma membersOf_insert doc role members tok :
  membersOf {| etag := tok;
               bindings := Some (<[role := members]> (bindingsOf doc)) |} role
    = members.
Proof. unfold membersOf, bindingsOf; simpl. now rewrite lookup_insert_eq. Qed.

Lemma membersOf_delete doc role tok :
  membersOf {| etag := tok;
               bindings := Some (delete role (bindingsOf doc)) |} role = ∅.
Proof. unfold membersOf, bindingsOf; simpl. now rewrite lookup_delete_eq. Qed.

(** The flag of each helper says whether the pair was in the document. *)
Lemma ensurePresent_flag doc binding :
  snd (ensurePresent doc binding) = false
  <-> Member binding ∈ membersOf doc (Role binding).
Proof.
  unfold ensurePresent. case_decide; simpl; split; try done.
Qed.

Lemma ensureAbsent_flag doc binding :
  snd (ensureAbsent doc binding) = true
  <-> Member binding ∈ membersOf doc (Role binding).
Proof.
  unfold ensureAbsent. case_decide; simpl; split; try done.
Qed.

(** Neither helper touches the version token. *)
Lemma ensurePresent_etag doc binding :
  etag (fst (ensurePresent doc binding)) = etag doc.
Proof. unfold ensurePresent. now case_decide. Qed.

Lemma ensureAbsent_etag doc binding :
  etag (fst (ensureAbsent doc binding)) = etag doc.
Proof. unfold ensureAbsent. now case_decide. Qed.

(** C8.  Both helpers are idempotent: run on its own output, each returns
    that document again and reports no change. *)
Theorem resolver_idempotent doc binding :
  ensurePresent (fst (ensurePresent doc binding)) binding
    = (fst (ensurePresent doc binding), false)
  ∧ ensureAbsent (fst (ensureAbsent doc binding)) binding
    = (fst (ensureAbsent doc binding), false).
Proof.
  split.
  - unfold ensurePresent at 2 3.
    destruct (decide (Member binding ∈ membersOf doc (Role binding)))
      as [Hin | Hout]; simpl.
    + unfold ensurePresent. now rewrite decide_True.
    + unfold ensurePresent. rewrite membersOf_insert.
      rewrite decide_True by set_solver. reflexivity.
  - unfold ensureAbsent at 2 3.
    destruct (decide (Member binding ∈ membersOf doc (Role binding)))
      as [Hin | Hout]; simpl.
    + unfold ensureAbsent.
      destruct (decide (membersOf doc (Role binding) ∖ {[Member binding]} = ∅)).
      * rewrite membersOf_delete. rewrite decide_False by set_solver.
        reflexivity.
      * rewrite membersOf_insert.
        rewrite decide_False
          by (rewrite elem_of_difference, elem_of_singleton; tauto).
        reflexivity.
    + unfold ensureAbsent. now rewrite decide_False.
Qed.

(** Scenarios A, B and C of the specification. *)
Example scenario_A :
  ensurePresent {| etag := "e0"; bindings := None |} viewerA
    = ({| etag := "e0";
          bindings := Some {[ "viewer" := {[ "user:a" ]} ]} |}, true).
Proof. vm_compute. reflexivity. Qed.

Example scenario_B :
  ensureAbsent docViewerAB viewerA
    = ({| etag := "e2";
          bindings := Some {[ "viewer" := {[ "user:b" ]} ]} |}, true).
Proof. vm_compute. reflexivity. Qed.

Example scenario_C :
  ensureAbsent docViewerA viewerA
    = ({| etag := "e1"; bindings := Some ∅ |}, true).
Proof. vm_compute. reflexivity. Qed.

(** * The verbs on the in-memory store *)

Lemma fetch_viewerA :
  GetIamPolicyDo "b" 3 Background {[ "b" := docViewerA ]}
    = (inl docViewerA, {[ "b" := docViewerA ]}).
Proof. vm_compute. reflexivity. Qed.

Lemma fetch_nothing :
  GetIamPolicyDo "b" 3 Background (∅ : gmap string PolicyDocument)
    = (inr (googleapiError StatusNotFound "notFound"), ∅).
Proof. vm_compute. reflexivity. Qed.

(** With the helper of section 4.2, and whatever the client: Observe
    reports up to date exactly when the member is bound to the role in
    the fetched document. *)
Lemma Observe_up_to_date_iff_present {context World : Type}
    {client : Client context PolicyDocument World}
    (ctx : context) (cr : BucketPolicyMember (list string))
    (s : State PolicyDocument World) (instance : PolicyDocument) (w : World) :
  GetIamPolicyDo (StringValue (Bucket (ForProvider (Spec cr))))
    PolicyVersion ctx (remote s) = (inl instance, w) ->
  fst (snd (fst (Observe ctx (ManagedBucketPolicyMember cr) s)))
    = {| ResourceExists := true;
         ResourceUpToDate := true;
         ResourceLateInitialized := false |}
  <-> Member (ForProvider (Spec cr))
        ∈ membersOf instance (Role (ForProvider (Spec cr))).
Proof.
  intros Hget. rewrite (Observe_run _ _ _ _ _ Hget).
  rewrite <- ensurePresent_flag. simpl.
  destruct (snd (ensurePresent instance (ForProvider (Spec cr)))); simpl;
    split; intros; try reflexivity; discriminate.
Qed.

(** Observe on a store whose document already holds the pair: up to date,
    nil error, one fetch. *)
Lemma Observe_reports_membership_witness :
  let r := Observe Background (ManagedBucketPolicyMember crViewerA)
             (start {[ "b" := docViewerA ]}) in
  snd (snd (fst r)) = None
  ∧ (fst (snd (fst r))
       = {| ResourceExists := true;
            ResourceUpToDate := true;
            ResourceLateInitialized := false |}
     <-> snd (ensurePresent docViewerA viewerA) = false)
  ∧ (snd (ensurePresent docViewerA viewerA) = true ->
     ResourceExists (fst (snd (fst r))) = false).
Proof.
  assert (Hget : GetIamPolicyDo "b" 3 Background {[ "b" := docViewerA ]}
                 = (inl docViewerA, {[ "b" := docViewerA ]}))
    by (vm_compute; reflexivity).
  exact (proj2 (Observe_reports_membership Background
                  (ManagedBucketPolicyMember crViewerA)
                  (start {[ "b" := docViewerA ]}))
           crViewerA docViewerA {[ "b" := docViewerA ]} eq_refl Hget).
Defined.

(** Observe on the same store sets the Available condition. *)
Lemma Observe_sets_Available_witness :
  fst (fst (Observe Background (ManagedBucketPolicyMember crViewerA)
              (start {[ "b" := docViewerA ]})))
    = ManagedBucketPolicyMember
        {| Spec := Spec crViewerA;
           Status := SetConditions Available (Status crViewerA) |}.
Proof.
  assert (Hsame : snd (BindRoleToMember (ForProvider (Spec crViewerA))
                         docViewerA) = false)
    by (vm_compute; reflexivity).
  exact (proj1 (proj1 (Observe_sets_Available_only_up_to_date Background
                         (ManagedBucketPolicyMember crViewerA)
                         (start {[ "b" := docViewerA ]}))
                  crViewerA docViewerA {[ "b" := docViewerA ]}
                  eq_refl fetch_viewerA)
           Hsame).
Defined.

(** Create on the same store: nothing to do, nothing written. *)
Lemma Create_present_is_noop_witness :
  let s := start {[ "b" := docViewerA ]} in
  let r := Create Background (ManagedBucketPolicyMember crViewerA) s in
  snd (fst r) = None
  ∧ issued s (snd r) [CallGetIamPolicy "b" 3 (inl docViewerA)]
  ∧ filter (fun c => isSetIamPolicy c = true) (calls (snd r))
      = filter (fun c => isSetIamPolicy c = true) (calls s)
  ∧ remote (snd r) = {[ "b" := docViewerA ]}.
Proof.
  assert (Hsame : snd (BindRoleToMember (ForProvider (Spec crViewerA))
                         docViewerA) = false)
    by (vm_compute; reflexivity).
  exact (Create_present_is_noop Background crViewerA
           (start {[ "b" := docViewerA ]}) docViewerA
           {[ "b" := docViewerA ]} fetch_viewerA Hsame).
Defined.

(** Delete on the same store: the pair is there, so one replace follows
    the fetch. *)
Lemma Delete_removes_pair_witness :
  let s := start {[ "b" := docViewerA ]} in
  let mutated := fst (ensureAbsent docViewerA viewerA) in
  let changed := snd (ensureAbsent docViewerA viewerA) in
  let r := Delete Background (ManagedBucketPolicyMember crViewerA) s in
  (changed = false ->
     fst r = None
     ∧ issued s (snd r) [CallGetIamPolicy "b" 3 (inl docViewerA)]
     ∧ remote (snd r) = {[ "b" := docViewerA ]})
  ∧ (changed = true ->
     ∃ resp w',
       SetIamPolicyDo "b" mutated Background {[ "b" := docViewerA ]}
         = (resp, w')
       ∧ issued s (snd r)
           [CallGetIamPolicy "b" 3 (inl docViewerA);
            CallSetIamPolicy "b" mutated resp]
       ∧ remote (snd r) = w'
       ∧ ((∃ stored, resp = inl stored) -> fst r = None)).
Proof.
  exact (Delete_removes_pair Background crViewerA
           (start {[ "b" := docViewerA ]}) docViewerA
           {[ "b" := docViewerA ]} fetch_viewerA).
Defined.

(** Create on a store whose document lacks the pair: what is written
    carries the token of what was fetched. *)
Lemma replace_follows_fetch_witness :
  let mg := ManagedBucketPolicyMember crViewerA in
  let s := start {[ "b" := docEmpty ]} in
  ∃ cs,
    issued s (snd (runVerb VCreate Background mg s)) cs
    ∧ (∀ s2, remote s2 = remote s ->
             issued s2 (snd (runVerb VCreate Background mg s2)) cs)
    ∧ ∀ bucket doc resp,
        CallSetIamPolicy bucket doc resp ∈ cs ->
        ∃ cr instance w,
          mg = ManagedBucketPolicyMember cr
          ∧ GetIamPolicyDo bucket 3 Background (remote s) = (inl instance, w)
          ∧ cs = [CallGetIamPolicy bucket 3 (inl instance);
                  CallSetIamPolicy bucket doc resp]
          ∧ (doc = fst (ensurePresent instance (ForProvider (Spec cr)))
             ∨ doc = fst (ensureAbsent instance (ForProvider (Spec cr))))
          ∧ etag doc = etag instance.
Proof.
  exact (replace_follows_fetch etag VCreate Background
           (ManagedBucketPolicyMember crViewerA)
           (start {[ "b" := docEmpty ]})
           (fun p d => ensurePresent_etag d p)
           (fun p d => ensureAbsent_etag d p)).
Defined.

(** Every fetch on the in-memory store asks for version 3, the richest of
    0, 1 and 3. *)
Lemma fetch_requests_richest_version_witness :
  let mg := ManagedBucketPolicyMember crViewerA in
  let s := start {[ "b" := docViewerA ]} in
  ∃ cs,
    issued s (snd (runVerb VObserve Background mg s)) cs
    ∧ (∀ cr, mg = ManagedBucketPolicyMember cr ->
         ∃ resp,
           head cs
             = Some (CallGetIamPolicy
                       (default "" (Bucket (ForProvider (Spec cr)))) 3 resp))
    ∧ ∀ bucket version resp,
        CallGetIamPolicy bucket version resp ∈ cs ->
        version = 3%Z ∧ richestVersion supportedVersions version.
Proof.
  assert (Hrich : richestVersion supportedVersions PolicyVersion).
  { split.
    - unfold supportedVersions. simpl. set_solver.
    - unfold supportedVersions. simpl. repeat constructor; lia. }
  exact (fetch_requests_richest_version supportedVersions VObserve Background
           (ManagedBucketPolicyMember crViewerA)
           (start {[ "b" := docViewerA ]}) Hrich).
Defined.

(** ** Failures on the in-memory store *)

(** The bucket is not there: Observe hands the NotFound back, wrapped. *)
Lemma Observe_returns_NotFound_witness :
  let r := fst (Observe Background (ManagedBucketPolicyMember crViewerA)
                  (start ∅)) in
  fst (snd r) = ExternalObservation_zero
  ∧ snd (snd r)
      = Some (errorsWithMessage (googleapiError StatusNotFound "notFound")
                "cannot get policy")
  ∧ IsErrorNotFound
      (errorsWithMessage (googleapiError StatusNotFound "notFound")
         "cannot get policy") = true.
Proof.
  exact (Observe_returns_NotFound Background crViewerA (start ∅)
           (googleapiError StatusNotFound "notFound") ∅
           fetch_nothing eq_refl).
Defined.

(** C6 as stated fails: on a NotFound, Observe does return an error to
    the control loop. *)
Lemma Observe_NotFound_counterexample :
  let r := fst (Observe Background (ManagedBucketPolicyMember crViewerA)
                  (start ∅)) in
  GetIamPolicyDo "b" 3 Background (∅ : gmap string PolicyDocument)
    = (inr (googleapiError StatusNotFound "notFound"), ∅)
  ∧ IsErrorNotFound (googleapiError StatusNotFound "notFound") = true
  ∧ snd (snd r) ≠ None.
Proof.
  split; [exact fetch_nothing |]. split; [reflexivity |].
  cbv zeta.
  rewrite (Observe_run (imports := memImports) Background crViewerA (start ∅)
             (inr (googleapiError StatusNotFound "notFound")) ∅ fetch_nothing).
  discriminate.
Qed.

Lemma racy_fetch_viewerA :
  racyGetIamPolicy "b" 3 Background {[ "b" := docViewerA ]}
    = (inl docViewerA,
       {[ "b" := {| etag := "e1+"; bindings := bindings docViewerA |} ]}).
Proof. vm_compute. reflexivity. Qed.

(** A missing bucket fails the fetch of Delete; a writer that got in
    between fails the replace of Create.  Each comes back wrapped with the
    message of its stage. *)
Lemma failures_wrapped_by_stage_witness :
  (let mg := ManagedBucketPolicyMember crViewerA in
   fst (runVerb VDelete Background mg (start ∅))
     = Some (errorsWithMessage (googleapiError StatusNotFound "notFound")
               "cannot get policy")
   ∧ issued (start ∅) (snd (runVerb VDelete Background mg (start ∅)))
       [CallGetIamPolicy "b" 3
          (inr (googleapiError StatusNotFound "notFound"))])
  ∧ (let mg := ManagedBucketPolicyMember crViewerB in
     let s := start {[ "b" := docViewerA ]} in
     let doc := fst (ensurePresent docViewerA viewerB) in
     let conflict :=
       googleapiError StatusPreconditionFailed "conditionNotMet" in
     fst (runVerb (bucketpolicy := racyClient) VCreate Background mg s)
       = Some (errorsWithMessage conflict "cannot set policy")
     ∧ issued s
         (snd (runVerb (bucketpolicy := racyClient) VCreate Background mg s))
         [CallGetIamPolicy "b" 3 (inl docViewerA);
          CallSetIamPolicy "b" doc (inr conflict)]).
Proof.
  split.
  - exact (proj1 (failures_wrapped_by_stage VDelete Background crViewerA
                    (start ∅))
             (googleapiError StatusNotFound "notFound") ∅ fetch_nothing).
  - assert (Hbind : BindRoleToMember (ForProvider (Spec crViewerB)) docViewerA
                    = (fst (ensurePresent docViewerA viewerB), true))
      by (vm_compute; reflexivity).
    assert (Hset : memSetIamPolicy "b" (fst (ensurePresent docViewerA viewerB))
                     Background
                     {[ "b" := {| etag := "e1+";
                                  bindings := bindings docViewerA |} ]}
                   = (inr (googleapiError StatusPreconditionFailed
                             "conditionNotMet"),
                      {[ "b" := {| etag := "e1+";
                                   bindings := bindings docViewerA |} ]}))
      by (vm_compute; reflexivity).
    exact (proj1 (proj2 (failures_wrapped_by_stage (bucketpolicy := racyClient)
                           VCreate Background crViewerB
                           (start {[ "b" := docViewerA ]})))
             docViewerA _ _ _ _ racy_fetch_viewerA
             (or_introl (conj (or_introl eq_refl) Hbind)) Hset).
Defined.

(** C7 as stated fails: the same NotFound comes back from the fetch of
    Observe, of Create and of Delete as one and the same error, and the
    same conflict comes back from the replace of Create and of Delete as
    one and the same error. *)
Lemma stages_share_wrap_counterexample :
  let notFound := googleapiError StatusNotFound "notFound" in
  let conflict := googleapiError StatusPreconditionFailed "conditionNotMet" in
  let mgA := ManagedBucketPolicyMember crViewerA in
  let mgB := ManagedBucketPolicyMember crViewerB in
  let s := start {[ "b" := docViewerA ]} in
  (fst (runVerb VObserve Background mgA (start ∅))
     = Some (errorsWithMessage notFound "cannot get policy")
   ∧ fst (runVerb VCreate Background mgA (start ∅))
     = Some (errorsWithMessage notFound "cannot get policy")
   ∧ fst (runVerb VDelete Background mgA (start ∅))
     = Some (errorsWithMessage notFound "cannot get policy"))
  ∧ (fst (runVerb (bucketpolicy := racyClient) VCreate Background mgB s)
     = Some (errorsWithMessage conflict "cannot set policy")
   ∧ fst (runVerb (bucketpolicy := racyClient) VDelete Background mgA s)
     = Some (errorsWithMessage conflict "cannot set policy")).
Proof.
  cbv zeta. repeat split; vm_compute; reflexivity.
Qed.

(** * Further properties of the verbs and of the connecter *)

Section VerbOutcomes.

Context {context Policy World ConditionedStatus Condition : Type}.
Context {bucketpolicy : Client context Policy World}.
Context {imports : Imports Policy ConditionedStatus Condition}.

Implicit Types (ctx : context) (s : State Policy World) (w : World).
Implicit Types (cr : BucketPolicyMember ConditionedStatus).
Implicit Types (mg : Managed ConditionedStatus) (instance : Policy).

Local Abbreviation bucketOf cr := (StringValue (Bucket (ForProvider (Spec cr)))).
Local Abbreviation paramsOf cr := (ForProvider (Spec cr)).
Local Abbreviation upToDate :=
  {| ResourceExists := true;
     ResourceUpToDate := true;
     ResourceLateInitialized := false |}.

(** Create (and so Update) after a fetch that went through: by cases on
    the flag of the helper and on the answer to the replace. *)
Ltac create_outcome Hget :=
  match type of Hget with
  | GetIamPolicyDo ?b _ ?ctx _ = (inl ?instance, ?w) =>
      let Hflag := fresh "Hflag" in
      let Hset := fresh "Hset" in
      let resp := fresh "resp" in
      let w' := fresh "w'" in
      match goal with
      | |- context [Create _ (ManagedBucketPolicyMember ?cr) _] =>
          destruct (snd (BindRoleToMember (ForProvider (Spec cr)) instance))
            eqn:Hflag;
          [ destruct (SetIamPolicyDo b
                        (fst (BindRoleToMember (ForProvider (Spec cr))
                                instance)) ctx w)
              as [resp w'] eqn:Hset;
            right;
            rewrite (Create_run_changed _ _ _ _ _ _ _ Hget Hflag Hset);
            now exists instance, w,
              (fst (BindRoleToMember (ForProvider (Spec cr)) instance)),
              resp, w'
          | left; rewrite (Create_run_unchanged _ _ _ _ _ Hget Hflag);
            now exists instance, w ]
      end
  end.

(** The three ways a verb can end on a BucketPolicyMember: the fetch
    failed; the fetch went through and nothing was written; the fetch went
    through and one replace was issued. *)
Lemma runVerb_outcome v ctx cr s :
  let r := runVerb v ctx (ManagedBucketPolicyMember cr) s in
  (∃ err w,
     GetIamPolicyDo (bucketOf cr) PolicyVersion ctx (remote s) = (inr err, w)
     ∧ r = (Some (errorsWithMessage err errGetPolicy),
            mkState w
              (calls s
                 ++ [CallGetIamPolicy (bucketOf cr) PolicyVersion (inr err)])))
  ∨ (∃ instance w,
     GetIamPolicyDo (bucketOf cr) PolicyVersion ctx (remote s)
       = (inl instance, w)
     ∧ r = (None,
            mkState w
              (calls s
                 ++ [CallGetIamPolicy (bucketOf cr) PolicyVersion
                       (inl instance)])))
  ∨ (∃ instance w doc resp w',
     GetIamPolicyDo (bucketOf cr) PolicyVersion ctx (remote s)
       = (inl instance, w)
     ∧ SetIamPolicyDo (bucketOf cr) doc ctx w = (resp, w')
     ∧ r = (match resp with
            | inr err => Some (errorsWithMessage err errSetPolicy)
            | inl _ => None
            end,
            mkState w'
              (calls s
                 ++ [CallGetIamPolicy (bucketOf cr) PolicyVersion
                       (inl instance);
                     CallSetIamPolicy (bucketOf cr) doc resp]))).
Proof.
  cbv zeta. rewrite runVerb_run.
  destruct (GetIamPolicyDo (bucketOf cr) PolicyVersion ctx (remote s))
    as [[instance | err] w] eqn:Hget.
  - right. destruct v.
    + left. rewrite (Observe_run _ _ _ _ _ Hget). exists instance, w.
      split; [reflexivity |].
      now destruct (snd (BindRoleToMember (paramsOf cr) instance)).
    + create_outcome Hget.
    + create_outcome Hget.
    + destruct (snd (UnbindRoleFromMember (paramsOf cr) instance)) eqn:Hflag.
      * destruct (SetIamPolicyDo (bucketOf cr)
                    (fst (UnbindRoleFromMember (paramsOf cr) instance)) ctx w)
          as [resp w'] eqn:Hset.
        right. rewrite (Delete_run_changed _ _ _ _ _ _ _ Hget Hflag Hset).
        now exists instance, w,
          (fst (UnbindRoleFromMember (paramsOf cr) instance)), resp, w'.
      * left. rewrite (Delete_run_unchanged _ _ _ _ _ Hget Hflag).
        now exists instance, w.
  - left. exists err, w. split; [reflexivity |]. destruct v.
    + now rewrite (Observe_run _ _ _ _ _ Hget).
    + now rewrite (Create_run_fetch_error _ _ _ _ _ Hget).
    + now rewrite (Create_run_fetch_error _ _ _ _ _ Hget).
    + now rewrite (Delete_run_fetch_error _ _ _ _ _ Hget).
Qed.

(** X1.  A managed resource of another kind is turned away by every
    verb before anything is asked of the remote store: the error is
    [errNotBucketPolicyMember], the store and the call log are as they
    were, and Observe hands back the zero observation and the resource
    untouched. *)
Theorem wrong_kind_is_rejected v ctx kind s :
  runVerb v ctx (ManagedOther kind) s
    = (Some (errorsNew errNotBucketPolicyMember), s)
  ∧ Observe ctx (ManagedOther kind) s
    = ((ManagedOther kind,
        (ExternalObservation_zero,
         Some (errorsNew errNotBucketPolicyMember))), s).
Proof. split; [now destruct v | reflexivity]. Qed.

(** X2.  When the helper reports a change, Create issues the fetch and
    then exactly one SetIamPolicy, for the same bucket and with the
    document the helper produced; its error is nil when that write goes
    through and the write's error wrapped with [errSetPolicy] when it
    does not. *)
Theorem Create_adds_pair ctx cr s instance w :
  GetIamPolicyDo (bucketOf cr) PolicyVersion ctx (remote s)
    = (inl instance, w) ->
  snd (BindRoleToMember (paramsOf cr) instance) = true ->
  let mutated := fst (BindRoleToMember (paramsOf cr) instance) in
  let r := Create ctx (ManagedBucketPolicyMember cr) s in
  ∃ resp w',
    SetIamPolicyDo (bucketOf cr) mutated ctx w = (resp, w')
    ∧ issued s (snd r)
        [CallGetIamPolicy (bucketOf cr) PolicyVersion (inl instance);
         CallSetIamPolicy (bucketOf cr) mutated resp]
    ∧ remote (snd r) = w'
    ∧ snd (fst r) = match resp with
                    | inl _ => None
                    | inr err => Some (errorsWithMessage err errSetPolicy)
                    end.
Proof.
  intros Hget Hflag. cbv zeta.
  destruct (SetIamPolicyDo (bucketOf cr)
              (fst (BindRoleToMember (paramsOf cr) instance)) ctx w)
    as [resp w'] eqn:Hset.
  exists resp, w'. rewrite (Create_run_changed _ _ _ _ _ _ _ Hget Hflag Hset).
  unfold issued; simpl. repeat split; now destruct resp.
Qed.

(** X3.  Observe followed by Create on the resource Observe handed back,
    the store answering the second fetch with the same document: if
    Observe reported up to date, Create returns nil and only fetches; if
    Observe reported the resource missing, Create fetches and then writes
    the helper's document. *)
Theorem Observe_then_Create ctx cr s instance w w2 :
  GetIamPolicyDo (bucketOf cr) PolicyVersion ctx (remote s)
    = (inl instance, w) ->
  GetIamPolicyDo (bucketOf cr) PolicyVersion ctx w = (inl instance, w2) ->
  let o := Observe ctx (ManagedBucketPolicyMember cr) s in
  let c := Create ctx (fst (fst o)) (snd o) in
  (fst (snd (fst o)) = upToDate ->
     snd (fst c) = None
     ∧ issued (snd o) (snd c)
         [CallGetIamPolicy (bucketOf cr) PolicyVersion (inl instance)])
  ∧ (ResourceExists (fst (snd (fst o))) = false ->
     ∃ resp,
       issued (snd o) (snd c)
         [CallGetIamPolicy (bucketOf cr) PolicyVersion (inl instance);
          CallSetIamPolicy (bucketOf cr)
            (fst (BindRoleToMember (paramsOf cr) instance)) resp]).
Proof.
  intros Hget Hget2. cbv zeta. rewrite (Observe_run _ _ _ _ _ Hget).
  destruct (snd (BindRoleToMember (paramsOf cr) instance)) eqn:Hflag;
    cbn [fst snd].
  - split; [discriminate |]. intros _.
    destruct (SetIamPolicyDo (bucketOf cr)
                (fst (BindRoleToMember (paramsOf cr) instance)) ctx w2)
      as [resp w'] eqn:Hset.
    exists resp.
    rewrite (Create_run_changed ctx cr (mkState w _) instance w2 resp w'
               Hget2 Hflag Hset).
    reflexivity.
  - split; [| discriminate]. intros _.
    rewrite (Create_run_unchanged ctx
               {| Spec := Spec cr;
                  Status := SetConditions Available (Status cr) |}
               (mkState w _) instance w2 Hget2 Hflag).
    now unfold issued.
Qed.

(** X4.  On a BucketPolicyMember a verb returns a nil error exactly when
    every remote call it issued went through. *)
Theorem nil_error_iff_calls_succeeded v ctx cr s :
  let r := runVerb v ctx (ManagedBucketPolicyMember cr) s in
  ∃ cs,
    issued s (snd r) cs
    ∧ (fst r = None <-> Forall (fun c => succeeded c = true) cs).
Proof.
  cbv zeta.
  destruct (runVerb_outcome v ctx cr s)
    as [(err & w & _ & ->)
       | [(instance & w & _ & ->)
         | (instance & w & doc & resp & w' & _ & _ & ->)]].
  - eexists; split; [reflexivity |]. simpl. split; [discriminate |].
    intros Hall. apply Forall_cons in Hall as [Hbad _]. discriminate.
  - eexists; split; [reflexivity |]. simpl. split; [| reflexivity].
    intros _. now repeat constructor.
  - eexists; split; [reflexivity |]. simpl. destruct resp as [stored | err].
    + split; [| reflexivity]. intros _. now repeat constructor.
    + split; [discriminate |]. intros Hall.
      apply Forall_cons in Hall as [_ Hall].
      apply Forall_cons in Hall as [Hbad _]. discriminate.
Qed.

(** X5.  Whatever the resource and the store, Observe hands back one of
    two observations, the zero one or existing-and-up-to-date: it never
    reports a resource that exists and is out of date, and it reports the
    zero observation whenever it returns an error. *)
Theorem Observe_observation_shape ctx mg s :
  let obs := fst (snd (fst (Observe ctx mg s))) in
  let err := snd (snd (fst (Observe ctx mg s))) in
  (obs = ExternalObservation_zero ∨ obs = upToDate)
  ∧ ResourceExists obs = ResourceUpToDate obs
  ∧ (err ≠ None -> obs = ExternalObservation_zero).
Proof.
  cbv zeta. destruct mg as [cr | kind].
  - destruct (GetIamPolicyDo (bucketOf cr) PolicyVersion ctx (remote s))
      as [[instance | e] w] eqn:Hget;
      rewrite (Observe_run _ _ _ _ _ Hget).
    + destruct (snd (BindRoleToMember (paramsOf cr) instance)); simpl.
      * now repeat split; [left | ..].
      * repeat split; [now right | intros Hne; now elim Hne].
    + simpl. now repeat split; [left | ..].
  - simpl. now repeat split; [left | ..].
Qed.

(** X6.  Observe does to the remote store what its one fetch does: when
    that fetch leaves the store as it found it, so does Observe. *)
Theorem Observe_is_read_only ctx cr s :
  snd (GetIamPolicyDo (bucketOf cr) PolicyVersion ctx (remote s)) = remote s ->
  remote (snd (Observe ctx (ManagedBucketPolicyMember cr) s)) = remote s.
Proof.
  destruct (GetIamPolicyDo (bucketOf cr) PolicyVersion ctx (remote s))
    as [r w] eqn:Hget.
  intros Hsame. rewrite (Observe_run _ _ _ _ _ Hget). exact Hsame.
Qed.

(** X7.  Observe never touches the desired state: the resource it hands
    back is of the same kind and has the same Spec as the one it was
    given, on every path. *)
Theorem Observe_keeps_spec ctx mg s :
  match mg, fst (fst (Observe ctx mg s)) with
  | ManagedBucketPolicyMember cr, ManagedBucketPolicyMember cr' =>
      Spec cr' = Spec cr
  | ManagedOther kind, ManagedOther kind' => kind' = kind
  | _, _ => False
  end.
Proof.
  destruct mg as [cr | kind]; [| reflexivity].
  destruct (GetIamPolicyDo (bucketOf cr) PolicyVersion ctx (remote s))
    as [[instance | e] w] eqn:Hget;
    rewrite (Observe_run _ _ _ _ _ Hget); [| reflexivity].
  now destruct (snd (BindRoleToMember (paramsOf cr) instance)).
Qed.

(** X8.  No verb asks twice: the calls of one run are nothing, or one
    fetch, or one fetch followed by one replace, and Observe never gets
    to the replace. *)
Theorem calls_at_most_fetch_then_replace v ctx mg s :
  ∃ cs,
    issued s (snd (runVerb v ctx mg s)) cs
    ∧ (cs = []
       ∨ (∃ g, cs = [g] ∧ isSetIamPolicy g = false)
       ∨ (∃ g p, cs = [g; p] ∧ isSetIamPolicy g = false
                 ∧ isSetIamPolicy p = true ∧ v ≠ VObserve)).
Proof.
  destruct mg as [cr | kind].
  - destruct (runVerb_outcome v ctx cr s)
      as [(err & w & _ & Hr)
         | [(instance & w & _ & Hr)
           | (instance & w & doc & resp & w' & _ & _ & Hr)]].
    + rewrite Hr. eexists; split; [reflexivity |]. right; left. eauto.
    + rewrite Hr. eexists; split; [reflexivity |]. right; left. eauto.
    + rewrite Hr. eexists; split; [reflexivity |]. right; right.
      do 2 eexists. repeat split. intros ->.
      destruct (GetIamPolicyDo (bucketOf cr) PolicyVersion ctx (remote s))
        as [r0 w0] eqn:Hget.
      rewrite runVerb_run, (Observe_run _ _ _ _ _ Hget) in Hr. simpl in Hr.
      injection Hr as _ _ Hcalls. apply app_inv_head in Hcalls. discriminate.
  - exists []. split; [| now left].
    rewrite verbs_reject_other. unfold issued; simpl. now rewrite app_nil_r.
Qed.

(** X9.  An error returned on a BucketPolicyMember is the failure of the
    last call the verb issued, wrapped once with the message of that
    call's stage; its root cause is the root cause of the remote error. *)
Theorem returned_error_wraps_last_call v ctx cr s e :
  fst (runVerb v ctx (ManagedBucketPolicyMember cr) s) = Some e ->
  ∃ cs c err,
    issued s (snd (runVerb v ctx (ManagedBucketPolicyMember cr) s)) cs
    ∧ last cs = Some c
    ∧ response c = inr err
    ∧ e = errorsWithMessage err (wrapMessage c)
    ∧ Cause e = Cause err.
Proof.
  destruct (runVerb_outcome v ctx cr s)
    as [(err & w & _ & ->)
       | [(instance & w & _ & ->)
         | (instance & w & doc & resp & w' & _ & _ & ->)]]; simpl.
  - intros [= <-]. do 3 eexists. split; [reflexivity |]. now repeat split.
  - discriminate.
  - destruct resp as [stored | err]; [discriminate |].
    intros [= <-]. do 3 eexists. split; [reflexivity |]. now repeat split.
Qed.

End VerbOutcomes.

Section ConnecterFacts.

Context {context Kube ConditionedStatus ClientOption Service : Type}.
Context {Policy World : Type}.
Context {connectImports : ConnectImports context Kube ConditionedStatus
                            ClientOption Service Policy World}.

(** X10.  Connect hands back an external client or an error, never both
    and never neither.  The client is there exactly when GetAuthInfo and
    NewService both went through, and then it holds the connecter's kube
    client and the buckets service of the new storage service.  An error
    of GetAuthInfo comes back as it is, NewService not being called; an
    error of NewService comes back wrapped with [errNewClient]. *)
Theorem Connect_client_or_error (c : bucketPolicyMemberConnecter Kube)
    (ctx : context) (mg : Managed ConditionedStatus) :
  (∃ project opts s,
     GetAuthInfo ctx (client c) mg = inl (project, opts)
     ∧ NewService ctx opts = inl s
     ∧ Connect c ctx mg
       = (Some {| kube := client c; bucketpolicy := NewBucketsService s |},
          None))
  ∨ (∃ err,
       Connect c ctx mg = (None, Some err)
       ∧ (GetAuthInfo ctx (client c) mg = inr err
          ∨ ∃ project opts cause,
              GetAuthInfo ctx (client c) mg = inl (project, opts)
              ∧ NewService ctx opts = inr cause
              ∧ err = errorsWithMessage cause errNewClient)).
Proof.
  unfold Connect.
  destruct (GetAuthInfo ctx (client c) mg) as [[project opts] | err].
  - destruct (NewService ctx opts) as [s | cause] eqn:Hnew.
    + left. now exists project, opts, s.
    + right. eexists; split; [reflexivity |]. right.
      now exists project, opts, cause.
  - right. exists err. split; [reflexivity | now left].
Qed.

End ConnecterFacts.

(** ** The further properties on the in-memory store *)

Lemma fetch_docEmpty :
  GetIamPolicyDo "b" 3 Background {[ "b" := docEmpty ]}
    = (inl docEmpty, {[ "b" := docEmpty ]}).
Proof. vm_compute. reflexivity. Qed.

(** Create on a store whose document lacks the pair: one fetch, one
    replace. *)
Lemma Create_adds_pair_witness :
  let s := start {[ "b" := docEmpty ]} in
  let mutated := fst (ensurePresent docEmpty viewerA) in
  let r := Create Background (ManagedBucketPolicyMember crViewerA) s in
  ∃ resp w',
    SetIamPolicyDo "b" mutated Background {[ "b" := docEmpty ]} = (resp, w')
    ∧ issued s (snd r)
        [CallGetIamPolicy "b" 3 (inl docEmpty);
         CallSetIamPolicy "b" mutated resp]
    ∧ remote (snd r) = w'
    ∧ snd (fst r) = match resp with
                    | inl _ => None
                    | inr err => Some (errorsWithMessage err "cannot set policy")
                    end.
Proof.
  assert (Hflag : snd (BindRoleToMember (ForProvider (Spec crViewerA))
                         docEmpty) = true)
    by (vm_compute; reflexivity).
  exact (Create_adds_pair Background crViewerA (start {[ "b" := docEmpty ]})
           docEmpty {[ "b" := docEmpty ]} fetch_docEmpty Hflag).
Defined.

(** Observe, then Create, on a store that already holds the pair. *)
Lemma Observe_then_Create_witness :
  let s := start {[ "b" := docViewerA ]} in
  let o := Observe Background (ManagedBucketPolicyMember crViewerA) s in
  let c := Create Background (fst (fst o)) (snd o) in
  (fst (snd (fst o))
     = {| ResourceExists := true;
          ResourceUpToDate := true;
          ResourceLateInitialized := false |} ->
     snd (fst c) = None
     ∧ issued (snd o) (snd c) [CallGetIamPolicy "b" 3 (inl docViewerA)])
  ∧ (ResourceExists (fst (snd (fst o))) = false ->
     ∃ resp,
       issued (snd o) (snd c)
         [CallGetIamPolicy "b" 3 (inl docViewerA);
          CallSetIamPolicy "b" (fst (ensurePresent docViewerA viewerA)) resp]).
Proof.
  exact (Observe_then_Create Background crViewerA
           (start {[ "b" := docViewerA ]}) docViewerA
           {[ "b" := docViewerA ]} {[ "b" := docViewerA ]}
           fetch_viewerA fetch_viewerA).
Defined.

(** The fetch of the in-memory store changes nothing, so Observe changes
    nothing. *)
Lemma Observe_is_read_only_witness :
  remote (snd (Observe Background (ManagedBucketPolicyMember crViewerA)
                 (start {[ "b" := docViewerA ]})))
    = {[ "b" := docViewerA ]}.
Proof.
  assert (Hsame : snd (GetIamPolicyDo "b" 3 Background
                         (remote (start {[ "b" := docViewerA ]})))
                  = remote (start {[ "b" := docViewerA ]}))
    by (vm_compute; reflexivity).
  exact (Observe_is_read_only Background crViewerA
           (start {[ "b" := docViewerA ]}) Hsame).
Defined.

(** Delete of a bucket that is not there: the error is the NotFound of
    the fetch, wrapped once. *)
Lemma returned_error_wraps_last_call_witness :
  let notFound := googleapiError StatusNotFound "notFound" in
  let r := runVerb VDelete Background (ManagedBucketPolicyMember crViewerA)
             (start ∅) in
  ∃ cs c err,
    issued (start ∅) (snd r) cs
    ∧ last cs = Some c
    ∧ response c = inr err
    ∧ errorsWithMessage notFound "cannot get policy"
      = errorsWithMessage err (wrapMessage c)
    ∧ Cause (errorsWithMessage notFound "cannot get policy") = Cause err.
Proof.
  assert (Hfail : fst (runVerb VDelete Background
                         (ManagedBucketPolicyMember crViewerA) (start ∅))
                  = Some (errorsWithMessage
                            (googleapiError StatusNotFound "notFound")
                            "cannot get policy"))
    by (vm_compute; reflexivity).
  exact (returned_error_wraps_last_call VDelete Background crViewerA
           (start ∅) _ Hfail).
Defined.
